(** * Fare calculation of the reservation model (Main/models.py)

    A shallow embedding of [Reservation.calculate_fare] together with the
    Python built-ins it relies on: [str.split], list indexing, [dict.get],
    mixed int/float arithmetic on IEEE-754 binary64 values and
    [round(x, 2)]; and of the account side of the file: the manager's
    [create_user] and [create_superuser] and [Profile.full_name]. *)

From Stdlib Require Import ZArith Lia Bool List String Ascii.
From Stdlib Require Import Floats.
From stdpp Require Import base option list strings pretty gmap.

Import ListNotations.
Local Open Scope string_scope.
Local Open Scope Z_scope.

(** ** Exceptions and the result of a Python expression *)

Module Py.

Inductive exn : Type :=
| ValueError
| IndexError
| ZeroDivisionError
| OverflowError.

Inductive result (A : Type) : Type :=
| Ok (a : A)
| Raise (e : exn).

Arguments Ok {A} a.
Arguments Raise {A} e.

Definition bind {A B : Type} (m : result A) (k : A -> result B) : result B :=
  match m with
  | Ok a => k a
  | Raise e => Raise e
  end.

(** ** Floats

    A Python [float] is a binary64 value; the kernel's primitive floats are
    the same format with the same round-to-nearest-even operations. *)

(** [float(n)] for an int [n]: the nearest binary64 value, [OverflowError]
    when [n] is out of range. *)
Definition float_of_int (n : Z) : result float :=
  let f := SF2Prim (binary_normalize prec emax n 0 false) in
  if PrimFloat.is_infinity f then Raise OverflowError else Ok f.

(** Round-half-to-even of the rational [num / den] ([den > 0]). *)
Definition div_half_even (num den : Z) : Z :=
  let q := num / den in
  let r := num mod den in
  match 2 * r ?= den with
  | Lt => q
  | Gt => q + 1
  | Eq => if Z.even q then q else q + 1
  end.

(** The integer nearest to [m * 2^e * 10^ndigits], ties to even. *)
Definition scaled_half_even (m : positive) (e : Z) (ndigits : Z) : Z :=
  let p10 := 10 ^ Z.abs ndigits in
  let '(num, den) :=
    if 0 <=? ndigits then (Z.pos m * p10, 1) else (Z.pos m, p10) in
  if 0 <=? e then div_half_even (num * 2 ^ e) den
  else div_half_even num (den * 2 ^ (- e)).

(** The binary64 value nearest to [n / 10^ndigits] ([n > 0]), with sign [s]. *)
Definition nearest_decimal (s : bool) (n : positive) (ndigits : Z) : float :=
  let p10 := Z.to_pos (10 ^ Z.abs ndigits) in
  if 0 <=? ndigits
  then SF2Prim (SFdiv prec emax (S754_finite s n 0) (S754_finite false p10 0))
  else SF2Prim (SFmul prec emax (S754_finite s n 0) (S754_finite false p10 0)).

(** [round(x, ndigits)] on a float: infinities and NaN round to themselves;
    a finite value is rounded correctly (ties to even, on its exact value) to
    [ndigits] decimals and the decimal is read back as the nearest float.
    [OverflowError] when the rounded decimal is out of range. *)
Definition float_round (x : float) (ndigits : Z) : result float :=
  match Prim2SF x with
  | S754_finite s m e =>
      match scaled_half_even m e ndigits with
      | Z.pos n =>
          let r := nearest_decimal s n ndigits in
          if PrimFloat.is_infinity r then Raise OverflowError else Ok r
      | _ => Ok (if s then PrimFloat.neg_zero else PrimFloat.zero)
      end
  | _ => Ok x
  end.

(** ** Numbers

    The values the method computes with are Python ints and floats; a mixed
    operation first converts the int operand with [float()]. *)

Inductive number : Type :=
| Int (n : Z)
| Float (x : float).

(** [a * b] *)
Definition mul (a b : number) : result number :=
  match a, b with
  | Int m, Int n => Ok (Int (m * n))
  | Int m, Float y => bind (float_of_int m) (fun x => Ok (Float (x * y)))
  | Float x, Int n => bind (float_of_int n) (fun y => Ok (Float (x * y)))
  | Float x, Float y => Ok (Float (x * y))
  end.

(** The correctly rounded quotient of two ints, [b <> 0]. *)
Definition int_true_divide (a b : Z) : float :=
  match a, b with
  | Z0, _ => PrimFloat.zero
  | Z.pos m, Z.pos n =>
      SF2Prim (SFdiv prec emax (S754_finite false m 0) (S754_finite false n 0))
  | Z.pos m, Z.neg n =>
      SF2Prim (SFdiv prec emax (S754_finite false m 0) (S754_finite true n 0))
  | Z.neg m, Z.pos n =>
      SF2Prim (SFdiv prec emax (S754_finite true m 0) (S754_finite false n 0))
  | Z.neg m, Z.neg n =>
      SF2Prim (SFdiv prec emax (S754_finite true m 0) (S754_finite true n 0))
  | _, Z0 => PrimFloat.nan
  end.

(** [a / b] (true division) *)
Definition truediv (a b : number) : result number :=
  match a, b with
  | Int m, Int n =>
      if n =? 0 then Raise ZeroDivisionError
      else let q := int_true_divide m n in
           if PrimFloat.is_infinity q then Raise OverflowError else Ok (Float q)
  | Int m, Float y =>
      bind (float_of_int m) (fun x =>
        if PrimFloat.is_zero y then Raise ZeroDivisionError
        else Ok (Float (x / y)))
  | Float x, Int n =>
      bind (float_of_int n) (fun y =>
        if PrimFloat.is_zero y then Raise ZeroDivisionError
        else Ok (Float (x / y)))
  | Float x, Float y =>
      if PrimFloat.is_zero y then Raise ZeroDivisionError
      else Ok (Float (x / y))
  end.

(** [round(a, ndigits)]: an int stays an int, a float stays a float. *)
Definition round (a : number) (ndigits : Z) : result number :=
  match a with
  | Int n =>
      if 0 <=? ndigits then Ok (Int n)
      else let p10 := 10 ^ (- ndigits) in Ok (Int (div_half_even n p10 * p10))
  | Float x => bind (float_round x ndigits) (fun r => Ok (Float r))
  end.

(** ** Strings and lists *)

(** [s.split(sep)]: the pieces of [s] between the occurrences of [sep], found
    left to right without overlap. [skip] counts the characters of a matched
    separator that are still to be passed over. *)
Fixpoint split_from (sep : string) (skip : nat) (s : string) : list string :=
  match s with
  | EmptyString => [EmptyString]
  | String c s' =>
      match skip with
      | S k => split_from sep k s'
      | O =>
          if String.prefix sep s
          then EmptyString :: split_from sep (Nat.pred (String.length sep)) s'
          else match split_from sep O s' with
               | piece :: pieces => String c piece :: pieces
               | [] => [String c EmptyString]
               end
      end
  end.

Definition split (s sep : string) : result (list string) :=
  match sep with
  | EmptyString => Raise ValueError
  | _ => Ok (split_from sep O s)
  end.

(** [l[i]], with Python's negative indices. *)
Definition getitem {A : Type} (l : list A) (i : Z) : result A :=
  let j := if i <? 0 then i + Z.of_nat (List.length l) else i in
  if j <? 0 then Raise IndexError
  else match l !! Z.to_nat j with
       | Some a => Ok a
       | None => Raise IndexError
       end.

(** [d.get(key, default)] *)
Definition dict_get `{Countable K} {V : Type}
    (d : gmap K V) (key : K) (default : V) : V :=
  match d !! key with
  | Some v => v
  | None => default
  end.

End Py.

Import Py.

(** ** The Reservation model *)

(** The columns of a [Reservation] row. Dates, times and the timestamp are
    kept as ordinals, the stored fare in hundredths, the foreign key and the
    uploaded receipt by their identifiers. *)
Record Reservation : Type := mkReservation {
  user : Z;
  full_name : string;
  contact_number : string;
  pickup_date : option Z;
  dropoff_date : option Z;
  pickup_time : option Z;
  dropoff_time : option Z;
  pickup_location : string;
  dropoff_location : string;
  vehicle : string;
  payment_method : string;
  total_fare : Z;
  roundtrip : bool;
  gcash_receipt : option string;
  created_at : Z
}.

Definition PICKUP_LOCATION_CHOICES : list (string * string) :=
  [ ("lucena_grand_terminal_pick", "Lucena Grand Terminal");
    ("groto_lucban_quezon_pick", "Groto Lucban Quezon");
    ("tayabas_city_quezon_pick", "Tayabas City Quezon") ].

Definition DROPOFF_LOCATION_CHOICES : list (string * string) :=
  [ ("lucena_grand_terminal_drop", "Lucena Grand Terminal");
    ("groto_lucban_quezon_drop", "Groto Lucban Quezon");
    ("tayabas_city_quezon_drop", "Tayabas City Quezon") ].

(** The choices of the [vehicle] column. *)
Definition VEHICLE_CHOICES : list (string * string) :=
  [ ("Toyota Corolla", "Class A - Toyota Corolla - 6 Seats");
    ("Modernized PUV V1", "Class B - Modernized PUV V1 - 15 Seats");
    ("Modernized PUV V2", "Class B - Modernized PUV V2 - 15 Seats") ].

(** *** Methods

    A method runs on the instance [self]: it may read and write its
    attributes and may raise. *)
Definition method (A : Type) : Type := Reservation -> result A * Reservation.

Definition ret {A : Type} (a : A) : method A := fun self => (Ok a, self).

Definition mbind {A B : Type} (m : method A) (k : A -> method B) : method B :=
  fun self =>
    match m self with
    | (Ok a, self') => k a self'
    | (Raise e, self') => (Raise e, self')
    end.

(** [self.attr] *)
Definition getattr {A : Type} (attr : Reservation -> A) : method A :=
  fun self => (Ok (attr self), self).

(** An expression that does not touch [self]. *)
Definition eval {A : Type} (r : result A) : method A := fun self => (r, self).

Notation "'let*' x ':=' m 'in' k" := (mbind m (fun x => k))
  (at level 10, x name, m at level 100, k at level 200).

(** *** calculate_fare *)

Set Warnings "-inexact-float".

(** Kilometers for each route. *)
Definition distance_map : gmap (string * string) number :=
  <[ ("lucban_terminal", "lucena_grand_terminal") := Float 23.2 ]>
  (<[ ("lucban_terminal", "tayabas_city_public_market") := Float 12.9 ]>
  (<[ ("tayabas_city_public_market", "lucena_grand_terminal") := Float 9.2 ]>
   ∅)).

(** Seat count of each vehicle. *)
Definition seat_map : gmap string number :=
  <[ "Toyota Corolla" := Int 6 ]>
  (<[ "Modernized PUV V1" := Int 15 ]>
  (<[ "Modernized PUV V2" := Int 15 ]>
   ∅)).

Definition calculate_fare : method number :=
  let* pickup := getattr pickup_location in
  let* pickup_parts := eval (split pickup "_pick") in
  let* pickup_key := eval (getitem pickup_parts 0) in
  let* dropoff := getattr dropoff_location in
  let* dropoff_parts := eval (split dropoff "_drop") in
  let* dropoff_key := eval (getitem dropoff_parts 0) in
  let distance := dict_get distance_map (pickup_key, dropoff_key) (Int 0) in
  let* fare_per_km := eval (truediv (Int 17) (Int 4)) in
  let* base_fare := eval (mul distance fare_per_km) in
  let* v := getattr vehicle in
  let seat_count := dict_get seat_map v (Int 0) in
  let* total := eval (mul base_fare seat_count) in
  let* rt := getattr roundtrip in
  let* total := (if rt then eval (mul total (Int 2)) else ret total) in
  eval (round total 2).

(** The value [self.calculate_fare()] returns, or the exception it raises. *)
Definition fare (self : Reservation) : result number := fst (calculate_fare self).

(** The reservation [self] booked for another trip: the four trip columns
    replaced, every other column kept. *)
Definition with_trip (self : Reservation)
    (pickup dropoff veh : string) (rt : bool) : Reservation :=
  {| user := user self;
     full_name := full_name self;
     contact_number := contact_number self;
     pickup_date := pickup_date self;
     dropoff_date := dropoff_date self;
     pickup_time := pickup_time self;
     dropoff_time := dropoff_time self;
     pickup_location := pickup;
     dropoff_location := dropoff;
     vehicle := veh;
     payment_method := payment_method self;
     total_fare := total_fare self;
     roundtrip := rt;
     gcash_receipt := gcash_receipt self;
     created_at := created_at self |}.

(** ** The fare as the specification words it *)

(** The text of [s] before the first occurrence of [sep], all of [s] when
    [sep] does not occur. *)
Fixpoint before_first (sep s : string) : string :=
  match s with
  | EmptyString => EmptyString
  | String c s' =>
      if String.prefix sep s then EmptyString else String c (before_first sep s')
  end.

(** [s] without the suffix [suffix], [s] itself when it does not end with it. *)
Fixpoint strip_suffix (suffix s : string) : string :=
  match s with
  | EmptyString => EmptyString
  | String c s' =>
      if String.eqb s suffix then EmptyString else String c (strip_suffix suffix s')
  end.

(** [round(distance * (17/4) * seat_count * (2 if roundtrip else 1), 2)] *)
Definition fare_formula (distance seat_count : number) (rt : bool) : result number :=
  bind (truediv (Int 17) (Int 4)) (fun rate =>
  bind (mul distance rate) (fun per_seat =>
  bind (mul per_seat seat_count) (fun one_way =>
  bind (mul one_way (Int (if rt then 2 else 1))) (fun total =>
  round total 2)))).

(** The formula on the route found under the codes with their suffixes
    stripped. *)
Definition stated_fare (pickup dropoff veh : string) (rt : bool) : result number :=
  fare_formula
    (dict_get distance_map
       (strip_suffix "_pick" pickup, strip_suffix "_drop" dropoff) (Int 0))
    (dict_get seat_map veh (Int 0)) rt.

(** The key pair [calculate_fare] looks up for two location codes: the text
    of each code before its first direction tag. *)
Definition route_key (pickup dropoff : string) : string * string :=
  (before_first "_pick" pickup, before_first "_drop" dropoff).

(** The formula on the route found under that key pair. *)
Definition keyed_fare (pickup dropoff veh : string) (rt : bool) : result number :=
  fare_formula
    (dict_get distance_map (route_key pickup dropoff) (Int 0))
    (dict_get seat_map veh (Int 0)) rt.

(** Twice a fare. *)
Definition twice (f : result number) : result number :=
  bind f (fun x => mul (Int 2) x).

(** ** Observations on fares *)

(** A returned value that is a float and is not zero. *)
Definition positive_fare (f : result number) : bool :=
  match f with
  | Ok (Float x) => (0 <? x)%float
  | _ => false
  end.

(** Both values are floats and the first is at most the second. *)
Definition fare_le (f g : result number) : bool :=
  match f, g with
  | Ok (Float x), Ok (Float y) => (x <=? y)%float
  | _, _ => false
  end.

(** [one_way <= round_trip and abs(round_trip - 2 * one_way) <= 0.01] *)
Definition within_centavo (one_way round_trip : result number) : bool :=
  match one_way, round_trip with
  | Ok (Float a), Ok (Float b) =>
      (a <=? b)%float && (PrimFloat.abs (b - 2 * a) <=? 0.01)%float
  | _, _ => false
  end.

(** The value of a decimal digit. *)
Definition digit_value (c : ascii) : option Z :=
  let n := Z.of_N (N_of_ascii c) in
  if (48 <=? n) && (n <=? 57) then Some (n - 48) else None.

(** The number a string of decimal digits writes, after the digits [acc]. *)
Fixpoint parse_digits (acc : Z) (s : string) : option Z :=
  match s with
  | EmptyString => Some acc
  | String c s' =>
      match digit_value c with
      | Some d => parse_digits (10 * acc + d) s'
      | None => None
      end
  end.

(** The seat count a vehicle label announces: a label reads
    [<class> - <vehicle> - <n> Seats], and the count is the number [n] that
    makes up its last part together with the word [Seats]. *)
Definition announced_seats (label : string) : option Z :=
  let part := List.last (split_from " - " O label) "" in
  let digits := strip_suffix " Seats" part in
  if String.eqb (digits +:+ " Seats") part && negb (String.eqb digits "")
  then parse_digits 0 digits
  else None.

(** ** User accounts *)

Module Accounts.

(** The Python values an account attribute or a keyword argument holds. *)
Inductive pyval : Type :=
| VNone
| VBool (b : bool)
| VInt (n : Z)
| VStr (s : string).

#[global] Instance pyval_eq_dec : EqDecision pyval.
Proof. solve_decision. Defined.

(** [bool(v)] *)
Definition truthy (v : pyval) : bool :=
  match v with
  | VNone => false
  | VBool b => b
  | VInt n => negb (n =? 0)
  | VStr s => negb (String.eqb s "")
  end.

(** [str(v)] *)
Definition str (v : pyval) : string :=
  match v with
  | VNone => "None"
  | VBool true => "True"
  | VBool false => "False"
  | VInt n => pretty n
  | VStr s => s
  end.

(** What a manager or model method raises; [E] are the errors of the
    database. *)
Inductive error (E : Type) : Type :=
| ValueError (msg : string)
| TypeError
| AttributeError (name : string)
| DatabaseError (e : E).

Arguments ValueError {E} msg.
Arguments TypeError {E}.
Arguments AttributeError {E} name.
Arguments DatabaseError {E} e.

(** [d.setdefault(key, value)], for the dictionary it leaves. *)
Definition setdefault (key : string) (value : pyval)
    (d : gmap string pyval) : gmap string pyval :=
  match d !! key with
  | Some _ => d
  | None => <[key := value]> d
  end.

(** The columns of [User] with the value a new instance gets for each: the
    declared default, [None] for a nullable column, the empty string for a
    text column. [id], [password], [last_login] and [is_superuser] come with
    the base classes. *)
Definition User_fields : list (string * pyval) :=
  [ ("id", VNone);
    ("password", VStr "");
    ("last_login", VNone);
    ("is_superuser", VBool false);
    ("username", VStr "");
    ("email", VNone);
    ("first_name", VStr "");
    ("last_name", VStr "");
    ("is_staff", VBool false);
    ("is_active", VBool true);
    ("date_joined", VNone);
    ("is_driver", VBool false);
    ("contact_number", VNone) ].

Definition User_defaults : gmap string pyval := list_to_map User_fields.

Definition is_keyword (k : string) : bool :=
  bool_decide (k ∈ map fst User_fields) || String.eqb k "pk".

(** A constructor that knows the columns and [pk] only: every column takes
    the keyword given for it or else its default, [pk] stands for [id], and
    any other keyword is a [TypeError]. It serves the sample backend below. *)
Definition columns_only {E : Type} (kwargs : gmap string pyval)
    : error E + gmap string pyval :=
  if forallb is_keyword (map fst (map_to_list kwargs))
  then
    let attrs := delete "pk" kwargs ∪ User_defaults in
    inr (match kwargs !! "pk" with
         | Some v => <["id" := v]> attrs
         | None => attrs
         end)
  else inl TypeError.

(** What the framework does behind the manager: building an instance of the
    model from keyword arguments (the instance is the dictionary of its
    attributes; which keywords besides the columns are accepted, and with
    what error the others are refused, is the framework's business), hashing
    a raw password, and saving an instance in the database [DB] (which may
    fail, and which may fill in columns of the instance). *)
Record Backend (DB E : Type) : Type := {
  construct : gmap string pyval -> error E + gmap string pyval;
  make_password : pyval -> string;
  save : DB -> gmap string pyval -> E + DB * gmap string pyval
}.

Arguments construct {DB E} _ _.
Arguments make_password {DB E} _ _.
Arguments save {DB E} _ _ _.

(** What the constructor does with the columns declared for [User]: in the
    instance it returns, every column but the primary key holds the keyword
    given for it, or else its default. *)
Definition constructs_columns {DB E : Type} (b : Backend DB E) : Prop :=
  forall (kwargs inst : gmap string pyval) (k : string) (d : pyval),
    construct b kwargs = inr inst ->
    User_defaults !! k = Some d ->
    k <> "id" ->
    inst !! k = Some (match kwargs !! k with Some v => v | None => d end).

(** [user.set_password(raw)] *)
Definition set_password {DB E : Type} (b : Backend DB E) (raw : pyval)
    (user : gmap string pyval) : gmap string pyval :=
  <["_password" := raw]> (<["password" := VStr (make_password b raw)]> user).

(** A call [f(username, password, **extra_fields)] binds the two parameters
    itself: a dictionary that holds one of them again is a [TypeError]. *)
Definition binds_parameter (extra_fields : gmap string pyval) : bool :=
  bool_decide (is_Some (extra_fields !! "username"))
  || bool_decide (is_Some (extra_fields !! "password")).

(** [UserManager.create_user(username, password, **extra_fields)], run on
    the database [db]. *)
Definition create_user {DB E : Type} (b : Backend DB E) (db : DB)
    (username password : pyval) (extra_fields : gmap string pyval)
    : error E + DB * gmap string pyval :=
  if binds_parameter extra_fields then inl TypeError
  else if negb (truthy username)
  then inl (ValueError "The Username field must be set")
  else
    match construct b (<["username" := username]> extra_fields) with
    | inl e => inl e
    | inr user =>
        let user := set_password b password user in
        match save b db user with
        | inl e => inl (DatabaseError e)
        | inr (db', user') => inr (db', user')
        end
    end.

(** [UserManager.create_superuser(username, password, **extra_fields)] *)
Definition create_superuser {DB E : Type} (b : Backend DB E) (db : DB)
    (username password : pyval) (extra_fields : gmap string pyval)
    : error E + DB * gmap string pyval :=
  if binds_parameter extra_fields then inl TypeError
  else
    let extra_fields := setdefault "is_staff" (VBool true) extra_fields in
    let extra_fields := setdefault "is_superuser" (VBool true) extra_fields in
    create_user b db username password extra_fields.

(** [instance.name] *)
Definition getattr {E : Type} (instance : gmap string pyval) (name : string)
    : error E + pyval :=
  match instance !! name with
  | Some v => inr v
  | None => inl (AttributeError name)
  end.

(** [a or b] *)
Definition or_else (a b : pyval) : pyval := if truthy a then a else b.

(** [Profile.full_name], for the profile of [user]:
    [f"{self.user.first_name} {self.user.last_name or ''}"] *)
Definition full_name {E : Type} (user : gmap string pyval) : error E + string :=
  match getattr user "first_name" with
  | inl e => inl e
  | inr first =>
      match getattr user "last_name" with
      | inl e => inl e
      | inr last => inr (str first +:+ " " +:+ str (or_else last (VStr "")))
      end
  end.

(** Whether a call returned. *)
Definition succeeded {X A : Type} (r : X + A) : bool :=
  match r with
  | inl _ => false
  | inr _ => true
  end.

(** A sample backend: the constructor above, and a database that keeps the
    saved instances in a list, numbers them and refuses a username already
    taken. *)
Definition list_backend : Backend (list (gmap string pyval)) string :=
  {| construct := columns_only;
     make_password := fun raw => "pbkdf2$" +:+ str raw;
     save := fun db user =>
       if bool_decide (user !! "username" ∈ map (fun u => u !! "username") db)
       then inl "UNIQUE constraint failed: username"
       else let user := <["id" := VInt (Z.of_nat (List.length db) + 1)]> user in
            inr ((db ++ [user])%list, user) |}.

End Accounts.

(** The three routes of [distance_map]. *)
Inductive route : Type :=
| LucbanLucena
| LucbanTayabas
| TayabasLucena.

Definition route_pair (r : route) : string * string :=
  match r with
  | LucbanLucena => ("lucban_terminal", "lucena_grand_terminal")
  | LucbanTayabas => ("lucban_terminal", "tayabas_city_public_market")
  | TayabasLucena => ("tayabas_city_public_market", "lucena_grand_terminal")
  end.

Definition route_km (r : route) : float :=
  match r with
  | LucbanLucena => 23.2
  | LucbanTayabas => 12.9
  | TayabasLucena => 9.2
  end.

(** Sample rows. *)
Definition blank : Reservation :=
  mkReservation 1 "Juan Dela Cruz" "09171234567" None None None None
    "" "" "" "cash" 0 false None 0.

Definition booking_a : Reservation :=
  mkReservation 7 "Maria Clara" "09170000001" (Some 738000) (Some 738001)
    (Some 480) (Some 1020)
    "lucban_terminal_pick" "lucena_grand_terminal_drop" "Toyota Corolla"
    "gcash" 59160 true (Some "receipts/a.png") 1700000000.

Definition booking_b : Reservation :=
  mkReservation 8 "Crisostomo Ibarra" "09170000002" None None None None
    "lucban_terminal_pick" "lucena_grand_terminal_drop" "Toyota Corolla"
    "cash" 0 true None 1700086400.

(** ** Built-ins *)

Lemma split_from_head (sep s : string) :
  exists pieces, split_from sep O s = before_first sep s :: pieces.
Proof.
  induction s as [|c s' [pieces IH]]; cbn [split_from before_first].
  - now exists [].
  - destruct (String.prefix sep (String c s')).
    + eexists; reflexivity.
    + rewrite IH. eexists; reflexivity.
Qed.

Lemma getitem_first {A : Type} (a : A) (l : list A) : getitem (a :: l) 0 = Ok a.
Proof. reflexivity. Qed.

(** [s.split(sep)[0]] for a separator that is not empty. *)
Lemma split_first (s sep : string) :
  sep <> EmptyString ->
  bind (split s sep) (fun parts => getitem parts 0) = Ok (before_first sep s).
Proof.
  intros Hsep. unfold split.
  destruct sep as [|c sep']; [congruence|].
  destruct (split_from_head (String c sep') s) as [pieces ->].
  reflexivity.
Qed.

Example split_tagged_code :
  split "lucban_terminal_pick" "_pick" = Ok ["lucban_terminal"; ""].
Proof. reflexivity. Qed.

Example split_tag_inside :
  split "a_pickup_pick_pic_pick" "_pick" = Ok ["a"; "up"; "_pic"; ""].
Proof. reflexivity. Qed.

Example split_untagged_code : split "lucban_terminal" "_drop" = Ok ["lucban_terminal"].
Proof. reflexivity. Qed.

Example split_empty_separator : split "lucban_terminal" "" = Raise ValueError.
Proof. reflexivity. Qed.

Example strip_suffix_tagged :
  strip_suffix "_pick" "lucban_terminal_pick" = "lucban_terminal".
Proof. reflexivity. Qed.

Example strip_suffix_tag_inside :
  strip_suffix "_pick" "lucban_terminal_pickup" = "lucban_terminal_pickup".
Proof. reflexivity. Qed.

Example before_first_tag_inside :
  before_first "_pick" "lucban_terminal_pickup" = "lucban_terminal".
Proof. reflexivity. Qed.

Example round_tie_to_even : float_round 0.125 2 = Ok 0.12%float.
Proof. vm_compute; reflexivity. Qed.

Example round_exact_tie_up : float_round 822.375 2 = Ok 822.38%float.
Proof. vm_compute; reflexivity. Qed.

Example round_below_tie : float_round 2.675 2 = Ok 2.67%float.
Proof. vm_compute; reflexivity. Qed.

Example round_negative_zero : float_round (-0.001) 2 = Ok (-0)%float.
Proof. vm_compute; reflexivity. Qed.

Example fare_per_km_value : truediv (Int 17) (Int 4) = Ok (Float 4.25).
Proof. vm_compute; reflexivity. Qed.

(** ** The two tables *)

Lemma distance_map_route (r : route) :
  distance_map !! route_pair r = Some (Float (route_km r)).
Proof. destruct r; vm_compute; reflexivity. Qed.

Lemma distance_map_cases (k : string * string) :
  (exists r, k = route_pair r /\ distance_map !! k = Some (Float (route_km r)))
  \/ ((forall r, k <> route_pair r) /\ distance_map !! k = None).
Proof.
  destruct (decide (k = route_pair LucbanLucena)) as [->|H1];
    [left; exists LucbanLucena; split; [reflexivity | apply distance_map_route] |].
  destruct (decide (k = route_pair LucbanTayabas)) as [->|H2];
    [left; exists LucbanTayabas; split; [reflexivity | apply distance_map_route] |].
  destruct (decide (k = route_pair TayabasLucena)) as [->|H3];
    [left; exists TayabasLucena; split; [reflexivity | apply distance_map_route] |].
  right. split.
  - intros []; assumption.
  - unfold distance_map.
    rewrite !lookup_insert_ne by (intros E; symmetry in E; contradiction).
    apply lookup_empty.
Qed.

Lemma seat_map_cases (v : string) :
  (v = "Toyota Corolla" /\ seat_map !! v = Some (Int 6))
  \/ ((v = "Modernized PUV V1" \/ v = "Modernized PUV V2")
      /\ seat_map !! v = Some (Int 15))
  \/ ((v <> "Toyota Corolla" /\ v <> "Modernized PUV V1"
       /\ v <> "Modernized PUV V2") /\ seat_map !! v = None).
Proof.
  destruct (decide (v = "Toyota Corolla")) as [->|H1];
    [left; split; [reflexivity | vm_compute; reflexivity] |].
  destruct (decide (v = "Modernized PUV V1")) as [->|H2];
    [right; left; split; [now left | vm_compute; reflexivity] |].
  destruct (decide (v = "Modernized PUV V2")) as [->|H3];
    [right; left; split; [now right | vm_compute; reflexivity] |].
  right; right. split; [auto|].
  unfold seat_map.
  rewrite !lookup_insert_ne by congruence.
  apply lookup_empty.
Qed.

(** ** Running the method *)

(** The values a table look-up can take. *)
Lemma distance_values (k : string * string) :
  (exists r, k = route_pair r
             /\ dict_get distance_map k (Int 0) = Float (route_km r))
  \/ (distance_map !! k = None /\ dict_get distance_map k (Int 0) = Int 0).
Proof.
  unfold dict_get.
  destruct (distance_map_cases k) as [(r & Hk & ->)|[_ ->]]; eauto.
Qed.

Lemma seat_values (v : string) :
  dict_get seat_map v (Int 0) = Int 6
  \/ dict_get seat_map v (Int 0) = Int 15
  \/ (seat_map !! v = None /\ dict_get seat_map v (Int 0) = Int 0).
Proof.
  unfold dict_get.
  destruct (seat_map_cases v) as [[_ ->]|[[_ ->]|[_ ->]]]; auto.
Qed.

(** The arithmetic of the method body on the values found in the tables. *)
Lemma body_arithmetic (self : Reservation) (distance seat_count : number) (rt : bool) :
  (exists r, distance = Float (route_km r)) \/ distance = Int 0 ->
  seat_count = Int 6 \/ seat_count = Int 15 \/ seat_count = Int 0 ->
  (let* fare_per_km := eval (truediv (Int 17) (Int 4)) in
   let* base_fare := eval (mul distance fare_per_km) in
   let* total := eval (mul base_fare seat_count) in
   let* total := (if rt then eval (mul total (Int 2)) else ret total) in
   eval (round total 2)) self
  = (fare_formula distance seat_count rt, self).
Proof.
  intros [[[] ->]| ->] [->|[->| ->]]; destruct rt; vm_compute; reflexivity.
Qed.

Lemma calculate_fare_run (self : Reservation) :
  calculate_fare self
  = (keyed_fare (pickup_location self) (dropoff_location self)
       (vehicle self) (roundtrip self), self).
Proof.
  unfold calculate_fare, keyed_fare, route_key.
  unfold mbind at 1 2 3 4 5 6. unfold getattr at 1 2. unfold eval at 1 2 3 4.
  unfold split.
  destruct (split_from_head "_pick" (pickup_location self)) as [ps ->].
  destruct (split_from_head "_drop" (dropoff_location self)) as [ds ->].
  rewrite !getitem_first.
  set (distance := dict_get distance_map _ (Int 0)).
  pose proof (body_arithmetic self distance
                (dict_get seat_map (vehicle self) (Int 0)) (roundtrip self)) as H.
  unfold mbind, getattr, eval, ret in *.
  apply H.
  - subst distance.
    destruct (distance_values (before_first "_pick" (pickup_location self),
                               before_first "_drop" (dropoff_location self)))
      as [(r & _ & ->)|[_ ->]]; eauto.
  - destruct (seat_values (vehicle self)) as [->|[->|[_ ->]]]; auto.
Qed.

Lemma fare_with_trip (self : Reservation) (p d v : string) (rt : bool) :
  fare (with_trip self p d v rt) = keyed_fare p d v rt.
Proof. unfold fare. now rewrite calculate_fare_run. Qed.

Lemma with_trip_self (self : Reservation) :
  with_trip self (pickup_location self) (dropoff_location self)
    (vehicle self) (roundtrip self) = self.
Proof. now destruct self. Qed.

(** A route that is not in the table costs nothing. *)
Lemma keyed_fare_unknown_route (p d v : string) (rt : bool) :
  distance_map !! route_key p d = None -> keyed_fare p d v rt = Ok (Float 0).
Proof.
  intros Hmiss. unfold keyed_fare, dict_get at 1. rewrite Hmiss.
  destruct (seat_values v) as [->|[->|[_ ->]]]; destruct rt;
    vm_compute; reflexivity.
Qed.

(** A vehicle that is not in the table costs nothing. *)
Lemma keyed_fare_unknown_vehicle (p d v : string) (rt : bool) :
  seat_map !! v = None -> keyed_fare p d v rt = Ok (Float 0).
Proof.
  intros Hmiss. unfold keyed_fare, dict_get at 2. rewrite Hmiss.
  destruct (distance_values (route_key p d)) as [([] & _ & ->)|[_ ->]];
    destruct rt; vm_compute; reflexivity.
Qed.

(** ** The fare formula *)

(** C1, as stated, fails: the code [lucban_terminal_pickup] does not end with
    [_pick], so stripping the suffix leaves it whole and the stated formula
    gives 0, while the method cuts it at its first [_pick] and charges the
    Lucban-Lucena route. *)
Lemma fare_is_not_suffix_keyed :
  fare (with_trip blank "lucban_terminal_pickup" "lucena_grand_terminal_drop"
          "Toyota Corolla" false) = Ok (Float 591.6)
  /\ stated_fare "lucban_terminal_pickup" "lucena_grand_terminal_drop"
       "Toyota Corolla" false = Ok (Float 0).
Proof. apply conj; vm_compute; reflexivity. Qed.

(** C1 (amended): for every reservation, [calculate_fare] returns
    [round(distance * (17/4) * seat_count * (2 if roundtrip else 1), 2)],
    where [distance] is looked up (default 0) under the text of each location
    code before its first [_pick] / [_drop], and [seat_count] is looked up
    (default 0) under the vehicle. *)
Theorem calculate_fare_formula (self : Reservation) :
  fare self
  = fare_formula
      (dict_get distance_map
         (before_first "_pick" (pickup_location self),
          before_first "_drop" (dropoff_location self)) (Int 0))
      (dict_get seat_map (vehicle self) (Int 0))
      (roundtrip self).
Proof. unfold fare. rewrite calculate_fare_run. reflexivity. Qed.

(** ** The declared choices *)

(** C2: for every pickup code of [PICKUP_LOCATION_CHOICES] and every dropoff
    code of [DROPOFF_LOCATION_CHOICES], the key pair is not in [distance_map]
    and the fare is 0, whatever the vehicle and the round-trip flag. *)
Theorem declared_choices_fare_zero
    (self : Reservation) (p d v : string) (rt : bool) :
  In p (map fst PICKUP_LOCATION_CHOICES) ->
  In d (map fst DROPOFF_LOCATION_CHOICES) ->
  distance_map !! route_key p d = None
  /\ fare (with_trip self p d v rt) = Ok (Float 0).
Proof.
  intros Hp Hd.
  assert (distance_map !! route_key p d = None) as Hmiss.
  { simpl in Hp, Hd.
    destruct Hp as [<-|[<-|[<-|[]]]]; destruct Hd as [<-|[<-|[<-|[]]]];
      vm_compute; reflexivity. }
  split; [exact Hmiss|].
  rewrite fare_with_trip. now apply keyed_fare_unknown_route.
Qed.

Lemma declared_choices_fare_zero_witness :
  distance_map !! route_key "groto_lucban_quezon_pick" "lucena_grand_terminal_drop"
    = None
  /\ fare (with_trip blank "groto_lucban_quezon_pick" "lucena_grand_terminal_drop"
             "Toyota Corolla" true) = Ok (Float 0).
Proof.
  apply declared_choices_fare_zero; simpl; [right; left | left]; reflexivity.
Defined.

(** ** Worked fares *)

(** C3: from [lucban_terminal_pick] to [lucena_grand_terminal_drop] in a
    Toyota Corolla, one way, the fare is 591.60: distance 23.2, rate 4.25,
    base fare 98.6, 6 seats. *)
Theorem fare_lucban_lucena_corolla (self : Reservation) :
  fare (with_trip self "lucban_terminal_pick" "lucena_grand_terminal_drop"
          "Toyota Corolla" false) = Ok (Float 591.60)
  /\ dict_get distance_map
       (route_key "lucban_terminal_pick" "lucena_grand_terminal_drop") (Int 0)
     = Float 23.2
  /\ truediv (Int 17) (Int 4) = Ok (Float 4.25)
  /\ mul (Float 23.2) (Float 4.25) = Ok (Float 98.6)
  /\ dict_get seat_map "Toyota Corolla" (Int 0) = Int 6.
Proof. repeat apply conj; vm_compute; reflexivity. Qed.

(** C4: on the same route in a Modernized PUV V1, round trip, the fare is
    2958.00: base fare 98.6, times 15 seats, times 2. *)
Theorem fare_lucban_lucena_puv_roundtrip (self : Reservation) :
  fare (with_trip self "lucban_terminal_pick" "lucena_grand_terminal_drop"
          "Modernized PUV V1" true) = Ok (Float 2958.00)
  /\ dict_get seat_map "Modernized PUV V1" (Int 0) = Int 15
  /\ mul (Float 98.6) (Int 15) = Ok (Float 1479.0)
  /\ mul (Float 1479.0) (Int 2) = Ok (Float 2958.0).
Proof. repeat apply conj; vm_compute; reflexivity. Qed.

(** ** Round trips *)

(** C5, as stated, fails: from Lucban to the Tayabas market in a 15-seat
    vehicle the one-way total 822.375 rounds to 822.38, the round-trip total
    1644.75 stays 1644.75, and twice 822.38 is 1644.76. *)
Lemma roundtrip_not_twice_lucban_tayabas :
  fare (with_trip blank "lucban_terminal_pick" "tayabas_city_public_market_drop"
          "Modernized PUV V1" false) = Ok (Float 822.38)
  /\ fare (with_trip blank "lucban_terminal_pick" "tayabas_city_public_market_drop"
             "Modernized PUV V1" true) = Ok (Float 1644.75)
  /\ twice (Ok (Float 822.38)) = Ok (Float 1644.76).
Proof. repeat apply conj; vm_compute; reflexivity. Qed.

(** C5 (amended): the round-trip fare is exactly twice the one-way fare for
    every pickup, dropoff and vehicle, except on the route from
    [lucban_terminal] to [tayabas_city_public_market] in a Modernized PUV (V1
    or V2). *)
Theorem roundtrip_fare_twice_one_way (self : Reservation) (p d v : string) :
  ~ (route_key p d = ("lucban_terminal", "tayabas_city_public_market")
     /\ (v = "Modernized PUV V1" \/ v = "Modernized PUV V2")) ->
  fare (with_trip self p d v true) = twice (fare (with_trip self p d v false)).
Proof.
  intros Hexc. rewrite !fare_with_trip. unfold keyed_fare.
  destruct (distance_values (route_key p d)) as [(r & Hk & ->)|[_ ->]].
  - destruct (seat_map_cases v) as [[_ Hv]|[[Hv15 Hv]|[_ Hv]]];
      unfold dict_get at 1 2; rewrite Hv.
    + destruct r; vm_compute; reflexivity.
    + destruct r; try (vm_compute; reflexivity).
      exfalso. apply Hexc. split; [exact Hk | exact Hv15].
    + destruct r; vm_compute; reflexivity.
  - destruct (seat_values v) as [->|[->|[_ ->]]]; vm_compute; reflexivity.
Qed.

Lemma roundtrip_fare_twice_one_way_witness :
  fare (with_trip blank "tayabas_city_public_market_pick"
          "lucena_grand_terminal_drop" "Modernized PUV V2" true)
  = twice (fare (with_trip blank "tayabas_city_public_market_pick"
                   "lucena_grand_terminal_drop" "Modernized PUV V2" false)).
Proof.
  apply roundtrip_fare_twice_one_way.
  intros [Hk _]. vm_compute in Hk. discriminate Hk.
Defined.

(** ** Direction of a route *)

(** C6: the fare is not symmetric. The pair (lucban_terminal,
    lucena_grand_terminal) is in the table with 23.2 km, the reversed pair is
    not, and from [lucena_grand_terminal_pick] to [lucban_terminal_drop] the
    fare is 0 for every vehicle and round-trip flag (while the forward trip in
    a Toyota Corolla costs 591.60). *)
Theorem reversed_lucban_lucena_fare_zero :
  distance_map !! ("lucban_terminal", "lucena_grand_terminal") = Some (Float 23.2)
  /\ distance_map
       !! route_key "lucena_grand_terminal_pick" "lucban_terminal_drop" = None
  /\ (forall (self : Reservation) (v : string) (rt : bool),
        fare (with_trip self "lucena_grand_terminal_pick" "lucban_terminal_drop"
                v rt) = Ok (Float 0))
  /\ (forall self : Reservation,
        fare (with_trip self "lucban_terminal_pick" "lucena_grand_terminal_drop"
                "Toyota Corolla" false) = Ok (Float 591.6)).
Proof.
  assert (distance_map
            !! route_key "lucena_grand_terminal_pick" "lucban_terminal_drop" = None)
    as Hmiss by (vm_compute; reflexivity).
  split; [|split; [|split]].
  - vm_compute; reflexivity.
  - exact Hmiss.
  - intros self v rt. rewrite fare_with_trip.
    now apply keyed_fare_unknown_route.
  - intros self. vm_compute; reflexivity.
Qed.

(** C7, as stated, fails: looking up (lucban_terminal, lucena_grand_terminal)
    gives 23.2 and the exchanged pair gives the default 0, and the two fares
    differ. *)
Lemma distance_map_is_ordered :
  dict_get distance_map ("lucban_terminal", "lucena_grand_terminal") (Int 0)
    = Float 23.2
  /\ dict_get distance_map ("lucena_grand_terminal", "lucban_terminal") (Int 0)
     = Int 0
  /\ fare (with_trip blank "lucban_terminal_pick" "lucena_grand_terminal_drop"
             "Modernized PUV V2" false) = Ok (Float 1479)
  /\ fare (with_trip blank "lucena_grand_terminal_pick" "lucban_terminal_drop"
             "Modernized PUV V2" false) = Ok (Float 0).
Proof. repeat apply conj; vm_compute; reflexivity. Qed.

(** C7 (amended): the table is keyed by ordered pairs. Exchanging the two
    terminals leaves the looked-up distance unchanged only when neither order
    is in the table; the reverse of each of the three routes is absent, and a
    trip whose key pair is such a reverse has fare 0. *)
Theorem distance_exchange_iff :
  (forall a b : string,
     dict_get distance_map (a, b) (Int 0) = dict_get distance_map (b, a) (Int 0)
     <-> distance_map !! (a, b) = None /\ distance_map !! (b, a) = None)
  /\ (forall r : route,
        distance_map !! (snd (route_pair r), fst (route_pair r)) = None)
  /\ (forall (r : route) (self : Reservation) (p d v : string) (rt : bool),
        route_key p d = (snd (route_pair r), fst (route_pair r)) ->
        fare (with_trip self p d v rt) = Ok (Float 0)).
Proof.
  assert (forall r, distance_map !! (snd (route_pair r), fst (route_pair r)) = None)
    as Hrev by (intros []; vm_compute; reflexivity).
  split; [|split; [exact Hrev|]].
  - intros a b. unfold dict_get.
    destruct (distance_map_cases (a, b)) as [(r & Hk & ->)|[_ ->]];
      destruct (distance_map_cases (b, a)) as [(r' & Hk' & ->)|[_ ->]].
    + exfalso. destruct r, r'; simpl in Hk, Hk'; congruence.
    + split; [discriminate | intros [? _]; discriminate].
    + split; [discriminate | intros [_ ?]; discriminate].
    + split; [auto | reflexivity].
  - intros r self p d v rt Hk. rewrite fare_with_trip.
    apply keyed_fare_unknown_route. rewrite Hk. apply Hrev.
Qed.

Lemma distance_exchange_iff_witness :
  fare (with_trip blank "tayabas_city_public_market_pick" "lucban_terminal_drop"
          "Toyota Corolla" true) = Ok (Float 0).
Proof.
  apply (proj2 (proj2 distance_exchange_iff) LucbanTayabas).
  vm_compute; reflexivity.
Defined.

(** ** Unknown vehicles and routes *)

(** C8: a vehicle other than the three of the seat table has fare 0 for every
    pickup, dropoff and round-trip flag, also on a route of the table. *)
Theorem unknown_vehicle_fare_zero
    (self : Reservation) (p d v : string) (rt : bool) :
  v <> "Toyota Corolla" ->
  v <> "Modernized PUV V1" ->
  v <> "Modernized PUV V2" ->
  fare (with_trip self p d v rt) = Ok (Float 0).
Proof.
  intros H1 H2 H3. rewrite fare_with_trip.
  apply keyed_fare_unknown_vehicle.
  destruct (seat_map_cases v) as [[? _]|[[[?|?] _]|[_ Hmiss]]];
    [contradiction .. | exact Hmiss].
Qed.

Lemma unknown_vehicle_fare_zero_witness :
  dict_get distance_map
    (route_key "lucban_terminal_pick" "lucena_grand_terminal_drop") (Int 0)
    = Float 23.2
  /\ fare (with_trip blank "lucban_terminal_pick" "lucena_grand_terminal_drop"
             "Tricycle" true) = Ok (Float 0).
Proof.
  split; [vm_compute; reflexivity|].
  apply unknown_vehicle_fare_zero; discriminate.
Defined.

(** C9, as stated, fails: with the suffixes stripped, the pair of
    [lucban_terminal_pickup] and [lucena_grand_terminal_drop] is not one of
    the three routes, yet the method cuts the pickup code at its first
    [_pick], finds the Lucban-Lucena route and charges 591.60. *)
Lemma stripped_pair_unknown_yet_charged :
  distance_map
    !! (strip_suffix "_pick" "lucban_terminal_pickup",
        strip_suffix "_drop" "lucena_grand_terminal_drop") = None
  /\ fare (with_trip blank "lucban_terminal_pickup" "lucena_grand_terminal_drop"
             "Toyota Corolla" false) = Ok (Float 591.6).
Proof. apply conj; vm_compute; reflexivity. Qed.

(** C9 (amended): [calculate_fare] never raises: for every reservation it
    returns a float; and when the key pair it looks up, the text of each
    location code before its first [_pick] / [_drop], is not one of the
    three routes it returns 0, whatever the vehicle and the round-trip
    flag. *)
Theorem calculate_fare_never_raises (self : Reservation) :
  (exists x : float, fare self = Ok (Float x))
  /\ (distance_map
        !! route_key (pickup_location self) (dropoff_location self) = None ->
      fare self = Ok (Float 0)).
Proof.
  unfold fare. rewrite calculate_fare_run. cbn [fst].
  split; [|apply keyed_fare_unknown_route].
  unfold keyed_fare.
  destruct (distance_values
              (route_key (pickup_location self) (dropoff_location self)))
    as [([] & _ & ->)|[_ ->]];
    destruct (seat_values (vehicle self)) as [->|[->|[_ ->]]];
    destruct (roundtrip self);
    eexists; vm_compute; reflexivity.
Qed.

Lemma calculate_fare_never_raises_witness :
  fare (with_trip blank "san_pablo_pick" "lucena_grand_terminal_drop"
          "Modernized PUV V1" true) = Ok (Float 0).
Proof.
  apply (proj2 (calculate_fare_never_raises
                  (with_trip blank "san_pablo_pick" "lucena_grand_terminal_drop"
                     "Modernized PUV V1" true))).
  vm_compute; reflexivity.
Defined.

(** ** Purity *)

(** C10: the fare depends on the pickup, the dropoff, the vehicle and the
    round-trip flag only: two reservations that agree on these four columns
    get equal fares, whatever their other columns; and the method leaves every
    column of the reservation as it was. *)
Theorem calculate_fare_pure (r1 r2 : Reservation) :
  pickup_location r1 = pickup_location r2 ->
  dropoff_location r1 = dropoff_location r2 ->
  vehicle r1 = vehicle r2 ->
  roundtrip r1 = roundtrip r2 ->
  fare r1 = fare r2
  /\ snd (calculate_fare r1) = r1
  /\ snd (calculate_fare r2) = r2.
Proof.
  intros Hp Hd Hv Hrt. unfold fare.
  rewrite !calculate_fare_run. simpl.
  rewrite Hp, Hd, Hv, Hrt. auto.
Qed.

Lemma calculate_fare_pure_witness :
  fare booking_a = fare booking_b
  /\ snd (calculate_fare booking_a) = booking_a
  /\ snd (calculate_fare booking_b) = booking_b.
Proof. apply calculate_fare_pure; reflexivity. Defined.

(** ** The fare schedule *)

Ltac table_cases p d v :=
  unfold keyed_fare;
  destruct (distance_values (route_key p d)) as [([] & _ & ->)|[_ ->]];
  destruct (seat_values v) as [->|[->|[_ ->]]].

(** X1: the fare is 0 exactly when the route or the vehicle is missing from
    its table; on a listed route in a listed vehicle it is positive. *)
Theorem fare_zero_iff (self : Reservation) :
  (fare self = Ok (Float 0)
   <-> distance_map
         !! route_key (pickup_location self) (dropoff_location self) = None
       \/ seat_map !! vehicle self = None)
  /\ (fare self = Ok (Float 0) \/ positive_fare (fare self) = true).
Proof.
  unfold fare. rewrite calculate_fare_run. cbn [fst].
  destruct (distance_map_cases
              (route_key (pickup_location self) (dropoff_location self)))
    as [(r & _ & Hd)|[_ Hd]].
  - destruct (seat_map_cases (vehicle self)) as [[_ Hs]|[[_ Hs]|[_ Hs]]].
    + unfold keyed_fare, dict_get. rewrite Hd, Hs.
      split; [split|].
      * intros H. apply (f_equal positive_fare) in H.
        destruct r, (roundtrip self); vm_compute in H; discriminate H.
      * intros [H|H]; discriminate H.
      * right. destruct r, (roundtrip self); vm_compute; reflexivity.
    + unfold keyed_fare, dict_get. rewrite Hd, Hs.
      split; [split|].
      * intros H. apply (f_equal positive_fare) in H.
        destruct r, (roundtrip self); vm_compute in H; discriminate H.
      * intros [H|H]; discriminate H.
      * right. destruct r, (roundtrip self); vm_compute; reflexivity.
    + rewrite (keyed_fare_unknown_vehicle _ _ _ _ Hs).
      split; [split; auto | auto].
  - rewrite (keyed_fare_unknown_route _ _ _ _ Hd).
    split; [split; auto | auto].
Qed.

(** X2: every fare is a float between 0 and 2958.00, the round trip from
    Lucban to Lucena in a 15-seat vehicle. *)
Theorem fare_bounds (self : Reservation) :
  fare_le (Ok (Float 0)) (fare self) = true
  /\ fare_le (fare self) (Ok (Float 2958)) = true.
Proof.
  unfold fare. rewrite calculate_fare_run. cbn [fst].
  table_cases (pickup_location self) (dropoff_location self) (vehicle self);
    destruct (roundtrip self); apply conj; vm_compute; reflexivity.
Qed.

(** X3: the returned fare is already a two-decimal value: rounding it again
    to two decimals gives the same float. *)
Theorem fare_round_again (self : Reservation) :
  bind (fare self) (fun f => round f 2) = fare self.
Proof.
  unfold fare. rewrite calculate_fare_run. cbn [fst].
  table_cases (pickup_location self) (dropoff_location self) (vehicle self);
    destruct (roundtrip self); vm_compute; reflexivity.
Qed.

(** X4: the two Modernized PUV vehicles are priced alike on every trip. *)
Theorem fare_puv_v1_v2 (self : Reservation) (p d : string) (rt : bool) :
  fare (with_trip self p d "Modernized PUV V1" rt)
  = fare (with_trip self p d "Modernized PUV V2" rt).
Proof.
  rewrite !fare_with_trip. unfold keyed_fare.
  replace (dict_get seat_map "Modernized PUV V1" (Int 0)) with (Int 15)
    by (vm_compute; reflexivity).
  replace (dict_get seat_map "Modernized PUV V2" (Int 0)) with (Int 15)
    by (vm_compute; reflexivity).
  reflexivity.
Qed.

(** X5: a round trip costs at least the one-way fare and differs from twice
    the one-way fare by at most 0.01. *)
Theorem roundtrip_within_centavo (self : Reservation) (p d v : string) :
  within_centavo (fare (with_trip self p d v false))
    (fare (with_trip self p d v true)) = true.
Proof.
  rewrite !fare_with_trip.
  table_cases p d v; vm_compute; reflexivity.
Qed.

(** X6: on every trip the Toyota Corolla costs at most what a Modernized PUV
    costs. *)
Theorem fare_corolla_le_puv (self : Reservation) (p d : string) (rt : bool) :
  fare_le (fare (with_trip self p d "Toyota Corolla" rt))
    (fare (with_trip self p d "Modernized PUV V1" rt)) = true.
Proof.
  rewrite !fare_with_trip. unfold keyed_fare.
  replace (dict_get seat_map "Modernized PUV V1" (Int 0)) with (Int 15)
    by (vm_compute; reflexivity).
  replace (dict_get seat_map "Toyota Corolla" (Int 0)) with (Int 6)
    by (vm_compute; reflexivity).
  destruct (distance_values (route_key p d)) as [([] & _ & ->)|[_ ->]];
    destruct rt; vm_compute; reflexivity.
Qed.

(** X7: every vehicle of the declared choices is in the seat table, with the
    seat count its label announces. *)
Theorem vehicle_choices_seats :
  Forall (fun choice : string * string =>
            exists n : Z, seat_map !! fst choice = Some (Int n)
                          /\ announced_seats (snd choice) = Some n)
    VEHICLE_CHOICES.
Proof.
  unfold VEHICLE_CHOICES.
  apply List.Forall_cons; [exists 6; apply conj; vm_compute; reflexivity|].
  apply List.Forall_cons; [exists 15; apply conj; vm_compute; reflexivity|].
  apply List.Forall_cons; [exists 15; apply conj; vm_compute; reflexivity|].
  apply List.Forall_nil.
Qed.

(** ** Direction tags *)

Lemma prefix_append (sep a y : string) :
  (String.length sep <= String.length a)%nat ->
  String.prefix sep (a +:+ y) = String.prefix sep a.
Proof.
  revert a. induction sep as [|c sep IH]; intros a Hlen.
  - destruct a; [destruct y|]; reflexivity.
  - destruct a as [|c' a]; simpl in *; [lia|].
    destruct (ascii_dec c c'); [apply IH; lia | reflexivity].
Qed.

Lemma prefix_self_append (sep y : string) : String.prefix sep (sep +:+ y) = true.
Proof.
  induction sep as [|c sep IH]; simpl; [now destruct y|].
  destruct (ascii_dec c c); [exact IH | congruence].
Qed.

Lemma before_first_tag (sep y : string) : before_first sep (sep +:+ y) = "".
Proof.
  destruct sep as [|c sep].
  - destruct y; reflexivity.
  - change (String c sep +:+ y) with (String c (sep +:+ y)).
    cbn [before_first].
    change (String c (sep +:+ y)) with (String c sep +:+ y).
    now rewrite prefix_self_append.
Qed.

Lemma length_append (a b : string) :
  String.length (a +:+ b) = (String.length a + String.length b)%nat.
Proof.
  induction a as [|c a IH]; [reflexivity|].
  change (String c a +:+ b) with (String c (a +:+ b)). simpl. now rewrite IH.
Qed.

Lemma append_empty (s : string) : s +:+ "" = s.
Proof.
  induction s as [|c s IH]; [reflexivity|].
  change (String c s +:+ "") with (String c (s +:+ "")). now rewrite IH.
Qed.

Lemma append_assoc (a b c : string) : (a +:+ b) +:+ c = a +:+ b +:+ c.
Proof.
  induction a as [|x a IH]; [reflexivity|].
  change ((String x a +:+ b) +:+ c) with (String x ((a +:+ b) +:+ c)).
  now rewrite IH.
Qed.

Lemma before_first_after_tag (sep x y : string) :
  before_first sep (x +:+ sep +:+ y) = before_first sep (x +:+ sep).
Proof.
  induction x as [|c x IH].
  - change ("" +:+ sep +:+ y) with (sep +:+ y).
    change ("" +:+ sep) with sep.
    rewrite before_first_tag.
    pose proof (before_first_tag sep "") as H.
    now rewrite append_empty in H.
  - change (String c x +:+ sep +:+ y) with (String c (x +:+ sep +:+ y)).
    change (String c x +:+ sep) with (String c (x +:+ sep)).
    cbn [before_first]. rewrite IH.
    assert (String c (x +:+ sep +:+ y) = String c (x +:+ sep) +:+ y) as ->.
    { change (String c (x +:+ sep) +:+ y) with (String c ((x +:+ sep) +:+ y)).
      now rewrite append_assoc. }
    rewrite prefix_append; [reflexivity|].
    simpl. rewrite length_append. lia.
Qed.

(** X8: whatever follows the first [_pick] of a pickup code, or the first
    [_drop] of a dropoff code, has no effect on the fare. *)
Theorem fare_ignores_text_after_tag
    (self : Reservation) (x y x' y' v : string) (rt : bool) :
  fare (with_trip self (x +:+ "_pick" +:+ y) (x' +:+ "_drop" +:+ y') v rt)
  = fare (with_trip self (x +:+ "_pick") (x' +:+ "_drop") v rt).
Proof.
  rewrite !fare_with_trip. unfold keyed_fare, route_key.
  now rewrite !before_first_after_tag.
Qed.

Lemma before_first_untagged (sep s : string) :
  String.index 0 sep s = None -> before_first sep s = s.
Proof.
  induction s as [|c s IH]; [reflexivity|].
  cbn [String.index before_first].
  destruct (String.prefix sep (String c s)); [discriminate|].
  destruct (String.index 0 sep s); [discriminate|].
  intros _. now rewrite IH.
Qed.

(** X15: a location code in which the direction tag does not occur is looked
    up whole: with such a pickup and such a dropoff code the fare is the
    formula on the table entry of the pair of codes themselves. *)
Theorem fare_of_untagged_codes (self : Reservation) (p d v : string) (rt : bool) :
  String.index 0 "_pick" p = None ->
  String.index 0 "_drop" d = None ->
  fare (with_trip self p d v rt)
  = fare_formula (dict_get distance_map (p, d) (Int 0))
      (dict_get seat_map v (Int 0)) rt.
Proof.
  intros Hp Hd. rewrite fare_with_trip. unfold keyed_fare, route_key.
  now rewrite (before_first_untagged _ _ Hp), (before_first_untagged _ _ Hd).
Qed.

Lemma fare_of_untagged_codes_witness :
  fare (with_trip blank "lucban_terminal" "lucena_grand_terminal"
          "Toyota Corolla" false)
  = fare_formula
      (dict_get distance_map ("lucban_terminal", "lucena_grand_terminal") (Int 0))
      (dict_get seat_map "Toyota Corolla" (Int 0)) false.
Proof. apply fare_of_untagged_codes; reflexivity. Defined.

(** ** Creating accounts *)

Lemma setdefault_lookup (key : string) (value : Accounts.pyval)
    (d : gmap string Accounts.pyval) (k : string) :
  Accounts.setdefault key value d !! k
  = if decide (k = key)
    then Some (match d !! key with Some v => v | None => value end)
    else d !! k.
Proof.
  unfold Accounts.setdefault.
  destruct (d !! key) as [v|] eqn:Hkey; destruct (decide (k = key)) as [->|Hne];
    try reflexivity.
  - exact Hkey.
  - apply lookup_insert_eq.
  - now rewrite lookup_insert_ne.
Qed.

Lemma binds_parameter_false (extra : gmap string Accounts.pyval) :
  Accounts.binds_parameter extra = false
  <-> extra !! "username" = None /\ extra !! "password" = None.
Proof.
  unfold Accounts.binds_parameter.
  rewrite orb_false_iff, !bool_decide_eq_false, <- !eq_None_not_Some.
  reflexivity.
Qed.



(** The attributes of an instance of the sample constructor, off the primary
    key. *)
Lemma columns_only_lookup {E : Type}
    (kwargs inst : gmap string Accounts.pyval) (k : string) :
  Accounts.columns_only (E := E) kwargs = inr inst ->
  k <> "id" -> k <> "pk" ->
  inst !! k = match kwargs !! k with
              | Some v => Some v
              | None => Accounts.User_defaults !! k
              end.
Proof.
  unfold Accounts.columns_only. intros Hm Hid Hpk.
  destruct (forallb _ _); [|discriminate Hm].
  injection Hm as <-.
  assert ((delete "pk" kwargs ∪ Accounts.User_defaults) !! k
          = match kwargs !! k with
            | Some v => Some v
            | None => Accounts.User_defaults !! k
            end) as Hk.
  { rewrite lookup_union, lookup_delete_ne by congruence.
    destruct (kwargs !! k);
      destruct (Accounts.User_defaults !! k); reflexivity. }
  destruct (kwargs !! "pk"); [rewrite lookup_insert_ne by congruence|]; exact Hk.
Qed.

Lemma list_backend_constructs_columns :
  Accounts.constructs_columns Accounts.list_backend.
Proof.
  intros kwargs inst k d Hm Hd Hid.
  assert (k <> "pk") as Hpk.
  { intros ->. vm_compute in Hd. discriminate Hd. }
  change (Accounts.construct Accounts.list_backend kwargs)
    with (Accounts.columns_only (E := string) kwargs) in Hm.
  rewrite (columns_only_lookup _ _ k Hm Hid Hpk), Hd.
  now destruct (kwargs !! k).
Qed.

Section AccountFacts.

Context {DB E : Type} (b : Accounts.Backend DB E).
Hypothesis Hcols : Accounts.constructs_columns b.

(** What a successful [create_user] has done. *)
Lemma create_user_inv (db db' : DB) (username password : Accounts.pyval)
    (extra user : gmap string Accounts.pyval) :
  Accounts.create_user b db username password extra = inr (db', user) ->
  Accounts.truthy username = true
  /\ exists inst,
       Accounts.save b db inst = inr (db', user)
       /\ inst !! "username" = Some username
       /\ inst !! "password" = Some (Accounts.VStr (Accounts.make_password b password))
       /\ forall k d, Accounts.User_defaults !! k = Some d ->
                      k <> "id" -> k <> "username" -> k <> "password" ->
                      inst !! k = Some (match extra !! k with
                                        | Some v => v
                                        | None => d
                                        end).
Proof.
  unfold Accounts.create_user. intros Hc.
  destruct (Accounts.binds_parameter extra); [discriminate Hc|].
  destruct (Accounts.truthy username); [|discriminate Hc].
  split; [reflexivity|].
  destruct (Accounts.construct b (<["username" := username]> extra))
    as [e|inst0] eqn:Hm; [discriminate Hc|].
  destruct (Accounts.save b db (Accounts.set_password b password inst0))
    as [e|[db1 user1]] eqn:Hs; [discriminate Hc|].
  injection Hc as <- <-.
  exists (Accounts.set_password b password inst0).
  split; [exact Hs|]. unfold Accounts.set_password.
  split; [|split].
  - rewrite !lookup_insert_ne by congruence.
    rewrite (Hcols _ _ "username" (Accounts.VStr "") Hm)
      by (vm_compute; reflexivity || congruence).
    now rewrite lookup_insert_eq.
  - rewrite lookup_insert_ne by congruence. apply lookup_insert_eq.
  - intros k d Hd Hid Hu Hp.
    assert (k <> "_password") as Hp'.
    { intros ->. vm_compute in Hd. discriminate Hd. }
    rewrite !lookup_insert_ne by congruence.
    rewrite (Hcols _ _ k d Hm Hd Hid).
    now rewrite lookup_insert_ne by congruence.
Qed.

(** What a successful [create_superuser] has done: [create_user] on the
    dictionary with the two flags defaulted. *)
Lemma create_superuser_inv (db db' : DB) (username password : Accounts.pyval)
    (extra user : gmap string Accounts.pyval) :
  Accounts.create_superuser b db username password extra = inr (db', user) ->
  exists inst,
    Accounts.save b db inst = inr (db', user)
    /\ inst !! "username" = Some username
    /\ forall k, k = "is_staff" \/ k = "is_superuser" ->
                 inst !! k = Some (match extra !! k with
                                   | Some v => v
                                   | None => Accounts.VBool true
                                   end).
Proof.
  unfold Accounts.create_superuser. intros Hc.
  destruct (Accounts.binds_parameter extra); [discriminate Hc|].
  apply create_user_inv in Hc as (_ & inst & Hs & Hu & _ & Hk).
  exists inst. split; [exact Hs|]. split; [exact Hu|].
  intros k [-> | ->].
  - rewrite (Hk "is_staff" (Accounts.VBool false))
      by (vm_compute; reflexivity || congruence).
    rewrite !setdefault_lookup.
    destruct (decide ("is_staff" = "is_superuser")); [congruence|].
    destruct (decide ("is_staff" = "is_staff")); [|congruence].
    reflexivity.
  - rewrite (Hk "is_superuser" (Accounts.VBool false))
      by (vm_compute; reflexivity || congruence).
    rewrite !setdefault_lookup.
    destruct (decide ("is_superuser" = "is_superuser")); [|congruence].
    destruct (decide ("is_superuser" = "is_staff")); [congruence|].
    reflexivity.
Qed.

(** With both flags among the extra fields, [create_superuser] is
    [create_user]. *)
Lemma create_superuser_with_flags (db : DB) (username password staff super : Accounts.pyval)
    (extra : gmap string Accounts.pyval) :
  extra !! "is_staff" = Some staff ->
  extra !! "is_superuser" = Some super ->
  Accounts.create_superuser b db username password extra
  = Accounts.create_user b db username password extra.
Proof.
  intros Hstaff Hsuper.
  unfold Accounts.create_superuser, Accounts.setdefault.
  rewrite Hstaff, Hsuper.
  unfold Accounts.create_user.
  now destruct (Accounts.binds_parameter extra).
Qed.


(** X10: when [create_user] succeeds, the username is a true value and the
    database and the user it returns are those of one [save], of an instance
    that holds this username, the hashed password under [password], and,
    unless given among the extra fields, [is_staff = False],
    [is_active = True] and [is_driver = False]. *)
Theorem create_user_saves_hashed (db db' : DB) (username password : Accounts.pyval)
    (extra user : gmap string Accounts.pyval) :
  Accounts.create_user b db username password extra = inr (db', user) ->
  Accounts.truthy username = true
  /\ exists inst,
       Accounts.save b db inst = inr (db', user)
       /\ inst !! "username" = Some username
       /\ inst !! "password"
          = Some (Accounts.VStr (Accounts.make_password b password))
       /\ (extra !! "is_staff" = None ->
           inst !! "is_staff" = Some (Accounts.VBool false))
       /\ (extra !! "is_active" = None ->
           inst !! "is_active" = Some (Accounts.VBool true))
       /\ (extra !! "is_driver" = None ->
           inst !! "is_driver" = Some (Accounts.VBool false)).
Proof.
  intros Hc. apply create_user_inv in Hc as (Ht & inst & Hs & Hu & Hp & Hk).
  split; [exact Ht|]. exists inst.
  repeat (split; [assumption|]).
  split; [|split]; intros Hnone.
  - rewrite (Hk "is_staff" (Accounts.VBool false))
      by (vm_compute; reflexivity || congruence).
    now rewrite Hnone.
  - rewrite (Hk "is_active" (Accounts.VBool true))
      by (vm_compute; reflexivity || congruence).
    now rewrite Hnone.
  - rewrite (Hk "is_driver" (Accounts.VBool false))
      by (vm_compute; reflexivity || congruence).
    now rewrite Hnone.
Qed.

(** X11: when [create_superuser] succeeds on extra fields that name neither
    [is_staff] nor [is_superuser], the saved instance has both set to [True]. *)
Theorem create_superuser_default_flags (db db' : DB)
    (username password : Accounts.pyval) (extra user : gmap string Accounts.pyval) :
  Accounts.create_superuser b db username password extra = inr (db', user) ->
  extra !! "is_staff" = None ->
  extra !! "is_superuser" = None ->
  exists inst,
    Accounts.save b db inst = inr (db', user)
    /\ inst !! "username" = Some username
    /\ inst !! "is_staff" = Some (Accounts.VBool true)
    /\ inst !! "is_superuser" = Some (Accounts.VBool true).
Proof.
  intros Hc Hstaff Hsuper.
  apply create_superuser_inv in Hc as (inst & Hs & Hu & Hk).
  exists inst. split; [exact Hs|]. split; [exact Hu|].
  split; rewrite Hk by auto; [rewrite Hstaff | rewrite Hsuper]; reflexivity.
Qed.

(** X12: [create_superuser] does not override a flag the caller passes: with
    [is_staff] and [is_superuser] both among the extra fields it returns or
    raises exactly what [create_user] does on the same arguments, and when it
    succeeds the saved instance carries the values given for the two flags,
    [False] included. *)
Theorem create_superuser_keeps_given_flags (db : DB)
    (username password staff super : Accounts.pyval)
    (extra : gmap string Accounts.pyval) :
  extra !! "is_staff" = Some staff ->
  extra !! "is_superuser" = Some super ->
  Accounts.create_superuser b db username password extra
  = Accounts.create_user b db username password extra
  /\ forall (db' : DB) (user : gmap string Accounts.pyval),
       Accounts.create_superuser b db username password extra = inr (db', user) ->
       exists inst,
         Accounts.save b db inst = inr (db', user)
         /\ inst !! "is_staff" = Some staff
         /\ inst !! "is_superuser" = Some super.
Proof.
  intros Hstaff Hsuper. split.
  - now apply (create_superuser_with_flags db username password staff super).
  - intros db' user Hc.
    apply create_superuser_inv in Hc as (inst & Hs & _ & Hk).
    exists inst. split; [exact Hs|].
    split; rewrite Hk by auto; [rewrite Hstaff | rewrite Hsuper]; reflexivity.
Qed.


End AccountFacts.

(** ** Profile names *)



Lemma create_user_saves_hashed_witness :
  match Accounts.create_user Accounts.list_backend [] (Accounts.VStr "ana")
          (Accounts.VStr "secret") ∅ with
  | inr (db', user) =>
      Accounts.truthy (Accounts.VStr "ana") = true
      /\ exists inst,
           Accounts.save Accounts.list_backend [] inst = inr (db', user)
           /\ inst !! "username" = Some (Accounts.VStr "ana")
           /\ inst !! "password"
              = Some (Accounts.VStr
                        (Accounts.make_password Accounts.list_backend
                           (Accounts.VStr "secret")))
           /\ ((∅ : gmap string Accounts.pyval) !! "is_staff" = None ->
               inst !! "is_staff" = Some (Accounts.VBool false))
           /\ ((∅ : gmap string Accounts.pyval) !! "is_active" = None ->
               inst !! "is_active" = Some (Accounts.VBool true))
           /\ ((∅ : gmap string Accounts.pyval) !! "is_driver" = None ->
               inst !! "is_driver" = Some (Accounts.VBool false))
  | inl _ => False
  end.
Proof.
  destruct (Accounts.create_user Accounts.list_backend [] (Accounts.VStr "ana")
              (Accounts.VStr "secret") ∅) as [e|[db' user]] eqn:Hc.
  - apply (f_equal Accounts.succeeded) in Hc. vm_compute in Hc. discriminate Hc.
  - exact (create_user_saves_hashed _ list_backend_constructs_columns
             _ _ _ _ _ _ Hc).
Defined.

Lemma create_superuser_default_flags_witness :
  match Accounts.create_superuser Accounts.list_backend [] (Accounts.VStr "admin")
          Accounts.VNone ∅ with
  | inr (db', user) =>
      exists inst,
        Accounts.save Accounts.list_backend [] inst = inr (db', user)
        /\ inst !! "username" = Some (Accounts.VStr "admin")
        /\ inst !! "is_staff" = Some (Accounts.VBool true)
        /\ inst !! "is_superuser" = Some (Accounts.VBool true)
  | inl _ => False
  end.
Proof.
  destruct (Accounts.create_superuser Accounts.list_backend []
              (Accounts.VStr "admin") Accounts.VNone ∅)
    as [e|[db' user]] eqn:Hc.
  - apply (f_equal Accounts.succeeded) in Hc. vm_compute in Hc. discriminate Hc.
  - apply (create_superuser_default_flags _ list_backend_constructs_columns
             _ _ _ _ _ _ Hc); reflexivity.
Defined.

Lemma create_superuser_keeps_given_flags_witness :
  Accounts.create_superuser Accounts.list_backend [] (Accounts.VStr "admin")
    Accounts.VNone
    (<["is_staff" := Accounts.VBool false]>
       (<["is_superuser" := Accounts.VBool true]> ∅))
  = Accounts.create_user Accounts.list_backend [] (Accounts.VStr "admin")
      Accounts.VNone
      (<["is_staff" := Accounts.VBool false]>
         (<["is_superuser" := Accounts.VBool true]> ∅))
  /\ forall (db' : list (gmap string Accounts.pyval))
            (user : gmap string Accounts.pyval),
       Accounts.create_superuser Accounts.list_backend [] (Accounts.VStr "admin")
         Accounts.VNone
         (<["is_staff" := Accounts.VBool false]>
            (<["is_superuser" := Accounts.VBool true]> ∅)) = inr (db', user) ->
       exists inst,
         Accounts.save Accounts.list_backend [] inst = inr (db', user)
         /\ inst !! "is_staff" = Some (Accounts.VBool false)
         /\ inst !! "is_superuser" = Some (Accounts.VBool true).
Proof.
  apply (create_superuser_keeps_given_flags _ list_backend_constructs_columns);
    vm_compute; reflexivity.
Defined.


